(** * arcpy_auth_manager: the token vault of [manager.py]

    A shallow embedding of [TokenManager] (src/arcpy_auth_manager/manager.py)
    and the properties of its store / retrieve cycle.

    The Python standard library and the third-party packages the class
    calls ([json], [open] in text mode, [keyring], [cryptography.fernet])
    are not part of the repository.  [keyring] is modelled as a finite map,
    the text codecs [ascii] and [utf-8] are written out, and [json], the
    locale codec of [open] and Fernet are interfaces (type classes), each
    with a class of the functional laws that the code relies on.  A
    reference instance of each interface is given at the end of the
    definitions, so that the class can be run on concrete inputs; the
    instances are shown to meet the laws before the properties are proved. *)

From Stdlib Require Import ZArith NArith Strings.Byte Ascii String List Lia.
From stdpp Require Import base option list gmap countable.

Set Warnings "-register-all".

Local Open Scope N_scope.

(** ** Python data *)

(** A Python [str] is a sequence of Unicode code points; [bytes] is a
    sequence of octets. *)
Abbreviation str := (list N).
Abbreviation bytes := (list byte).

(** A literal written with ASCII characters only. *)
Definition py (s : string) : str :=
  map N_of_ascii (list_ascii_of_string s).
Arguments py : simpl never.

Definition pyb (s : string) : bytes := list_byte_of_string s.

(** The exceptions that the modelled code can raise.  [AttributeError]
    records the type whose attribute was missing, [KeyError] the key. *)
Inductive pytype :=
  | NoneType | TBool | TInt | TStr | TList | TDict.

Inductive exn :=
  | NotImplementedError
  | AttributeError (ty : pytype) (attr : str)
  | KeyError (key : str)
  | TypeError
  | ValueError
  | UnicodeEncodeError
  | UnicodeDecodeError
  | JSONDecodeError
  | OSError
  | InvalidToken.

(** The names under which the specification files these failures; the
    class defines no exception of its own, so each name stands for the
    Python exception that the corresponding situation raises. *)
Inductive vault_error :=
  | UnsupportedPlatform     (* construction off Windows *)
  | CredentialNotFound      (* the backend answered None *)
  | UnknownIdentity         (* the registry has no entry for the user *)
  | DecryptionFailed        (* Fernet rejected the token *)
  | OtherError.

Definition error_kind (e : exn) : vault_error :=
  match e with
  | NotImplementedError => UnsupportedPlatform
  | AttributeError NoneType _ => CredentialNotFound
  | KeyError _ => UnknownIdentity
  | InvalidToken => DecryptionFailed
  | _ => OtherError
  end.

Inductive result (A : Type) :=
  | Ok (a : A)
  | Raise (e : exn).
Arguments Ok {A} a.
Arguments Raise {A} e.

(** *** The [ascii] and [utf-8] codecs *)

(** [s.encode('ascii')]: every code point must be below 128. *)
Definition ascii_char (c : N) : option byte :=
  if c <? 128 then Byte.of_N c else None.

Definition ascii_encode (s : str) : option bytes := mapM ascii_char s.

Definition str_encode_ascii (s : str) : result bytes :=
  match ascii_encode s with
  | Some b => Ok b
  | None => Raise UnicodeEncodeError
  end.

Definition is_cont (b : byte) : bool :=
  (128 <=? Byte.to_N b) && (Byte.to_N b <=? 191).

Definition cont_bits (b : byte) : N := Byte.to_N b - 128.

(** [b.decode('utf-8')], strict: shortest form only, no surrogates, nothing
    above U+10FFFF. *)
Fixpoint utf8_decode (b : bytes) : option str :=
  match b with
  | [] => Some []
  | b0 :: r0 =>
    let n0 := Byte.to_N b0 in
    if n0 <? 128 then cons n0 <$> utf8_decode r0
    else if (194 <=? n0) && (n0 <=? 223) then
      match r0 with
      | b1 :: r1 =>
        if is_cont b1
        then cons ((n0 - 192) * 64 + cont_bits b1) <$> utf8_decode r1
        else None
      | _ => None
      end
    else if (224 <=? n0) && (n0 <=? 239) then
      match r0 with
      | b1 :: b2 :: r2 =>
        let c := (n0 - 224) * 4096 + cont_bits b1 * 64 + cont_bits b2 in
        if is_cont b1 && is_cont b2 && (2048 <=? c)
           && negb ((55296 <=? c) && (c <=? 57343))
        then cons c <$> utf8_decode r2
        else None
      | _ => None
      end
    else if (240 <=? n0) && (n0 <=? 244) then
      match r0 with
      | b1 :: b2 :: b3 :: r3 =>
        let c := (n0 - 240) * 262144 + cont_bits b1 * 4096
                 + cont_bits b2 * 64 + cont_bits b3 in
        if is_cont b1 && is_cont b2 && is_cont b3
           && (65536 <=? c) && (c <=? 1114111)
        then cons c <$> utf8_decode r3
        else None
      | _ => None
      end
    else None
  end.

Definition bytes_decode_utf8 (b : bytes) : result str :=
  match utf8_decode b with
  | Some s => Ok s
  | None => Raise UnicodeDecodeError
  end.

(** Octets below 128: what base64 text is made of. *)
Definition ascii_bytes (b : bytes) : bool :=
  forallb (fun x => Byte.to_N x <? 128) b.

(** ** JSON values, as [json.load] builds them

    Objects become [dict]s, which keep insertion order; numbers are the
    integers (float literals are outside the model). *)
Inductive json :=
  | JNull
  | JBool (b : bool)
  | JInt (z : Z)
  | JStr (s : str)
  | JList (l : list json)
  | JObj (m : list (str * json)).

Definition type_of (v : json) : pytype :=
  match v with
  | JNull => NoneType
  | JBool _ => TBool
  | JInt _ => TInt
  | JStr _ => TStr
  | JList _ => TList
  | JObj _ => TDict
  end.

(** [d[k]] on a [dict]. *)
Fixpoint dict_get (m : list (str * json)) (k : str) : option json :=
  match m with
  | [] => None
  | (k', v) :: m' => if decide (k' = k) then Some v else dict_get m' k
  end.

(** [d[k] = v] on a [dict]: an existing key keeps its place, a new key goes
    last. *)
Fixpoint dict_set (m : list (str * json)) (k : str) (v : json)
  : list (str * json) :=
  match m with
  | [] => [(k, v)]
  | (k', v') :: m' =>
    if decide (k' = k) then (k', v) :: m' else (k', v') :: dict_set m' k v
  end.

(** [obj[k]] for a string [k]: only a [dict] can be subscripted by a string. *)
Definition getitem (obj : json) (k : str) : result json :=
  match obj with
  | JObj m =>
    match dict_get m k with
    | Some v => Ok v
    | None => Raise (KeyError k)
    end
  | _ => Raise TypeError
  end.

(** [obj[k] = v] for a string [k]. *)
Definition setitem (obj : json) (k : str) (v : json) : result json :=
  match obj with
  | JObj m => Ok (JObj (dict_set m k v))
  | _ => Raise TypeError
  end.

(** [v.encode('ascii')] on a value read from the registry: only [str] has
    the method. *)
Definition value_encode_ascii (v : json) : result bytes :=
  match v with
  | JStr s => str_encode_ascii s
  | _ => Raise (AttributeError (type_of v) (py "encode"))
  end.

(** ** State and exceptions

    A computation reads and updates a state and either returns or raises. *)
Definition M (S A : Type) : Type := S → result A * S.

Global Instance M_ret {S} : MRet (M S) := λ A a s, (Ok a, s).

Global Instance M_bind {S} : MBind (M S) := λ A B f c s,
  match c s with
  | (Ok a, s') => f a s'
  | (Raise e, s') => (Raise e, s')
  end.

Definition raise {S A} (e : exn) : M S A := λ s, (Raise e, s).
Definition gets {S A} (f : S → A) : M S A := λ s, (Ok (f s), s).
Definition modify {S} (f : S → S) : M S unit := λ s, (Ok tt, f s).

(** A pure step that may raise. *)
Definition lift_result {S A} (r : result A) : M S A := λ s, (r, s).

(** [try: c  except e: h], for the exceptions selected by [handles]. *)
Definition try_except {S A} (c : M S A) (handles : exn → bool) (h : M S A)
  : M S A := λ s,
  match c s with
  | (Raise e, s') => if handles e then h s' else (Raise e, s')
  | r => r
  end.

(** Run a computation on one component of a pair state. *)
Definition on_snd {S T A} (c : M T A) : M (S * T) A := λ st,
  let '(r, t') := c st.2 in (r, (st.1, t')).

(** ** The libraries the class calls *)

(** The codec that [open] uses in text mode (the locale's preferred
    encoding).  Decoding can fail. *)
Class TextCodec := {
  locale_encode : str → option bytes;
  locale_decode : bytes → option str
}.

(** Every ANSI code page and UTF-8 agree with ASCII on ASCII text. *)
Class TextCodecLaws `{TextCodec} : Prop := {
  locale_encode_ascii : ∀ s b, ascii_encode s = Some b → locale_encode s = Some b;
  locale_decode_ascii : ∀ s b, ascii_encode s = Some b → locale_decode b = Some s
}.

(** [json.dumps] and [json.loads] on the values above.  [json_loads]
    answers [None] where Python raises [JSONDecodeError]. *)
Class JsonLib := {
  json_dumps : json → str;
  json_loads : str → option json
}.

(** [json.dump] escapes every non-ASCII character (ensure_ascii is on by
    default), and what it writes reads back as the same value. *)
Class JsonLaws `{JsonLib} : Prop := {
  json_dumps_ascii : ∀ v, is_Some (ascii_encode (json_dumps v));
  json_loads_dumps : ∀ v, json_loads (json_dumps v) = Some v
}.

(** [cryptography.fernet.Fernet].  [entropy] stands for what the library
    draws from the operating system: random octets for keys and IVs, and the
    clock for the timestamp of a token.  [valid_key] is the check of the
    constructor, [decrypt] answers [None] where Python raises [InvalidToken]
    (it is called without a ttl). *)
Class FernetLib := {
  entropy : Type;
  generate_key : entropy → bytes * entropy;
  valid_key : bytes → bool;
  encrypt : bytes → bytes → entropy → bytes * entropy;
  decrypt : bytes → bytes → option bytes
}.

(** Keys and tokens are url-safe base64 text, a generated key passes the
    constructor, and a token opens under the key that sealed it. *)
Class FernetLaws `{FernetLib} : Prop := {
  generate_key_valid : ∀ e, valid_key (generate_key e).1 = true;
  generate_key_ascii : ∀ e, ascii_bytes (generate_key e).1 = true;
  encrypt_ascii : ∀ k p e,
    valid_key k = true → ascii_bytes (encrypt k p e).1 = true;
  decrypt_encrypt : ∀ k p e,
    valid_key k = true → decrypt k (encrypt k p e).1 = Some p
}.

(** ** The world outside the process *)

(** A path is the list of its components; [p / c] descends into [c]. *)
Abbreviation path := (list str).
Definition path_div (p : path) (c : string) : path := p ++ [py c].
Declare Scope path_scope.
Delimit Scope path_scope with path.
Infix "/" := path_div : path_scope.

(** Every write that reaches persistent storage, in the order it happens. *)
Inductive event :=
  | EvMakedirs (p : path)
  | EvFileWrite (p : path) (content : bytes)
  | EvSetPassword (service username password : str).

Section Vault.
Context `{TextCodec} `{JsonLib} `{FernetLib}.

Record world := World {
  platform : str;                       (* sys.platform *)
  home : path;                          (* pathlib.Path.home() *)
  dirs : gset path;                     (* the directories that exist *)
  files : gmap path bytes;              (* the regular files, by path *)
  keyring : gmap (str * str) str;       (* (service, username) to password *)
  rng : entropy;
  journal : list event
}.

Definition set_dirs (f : gset path → gset path) (w : world) : world :=
  World (platform w) (home w) (f (dirs w)) (files w) (keyring w) (rng w)
        (journal w).
Definition set_files (f : gmap path bytes → gmap path bytes) (w : world)
  : world :=
  World (platform w) (home w) (dirs w) (f (files w)) (keyring w) (rng w)
        (journal w).
Definition set_keyring (f : gmap (str * str) str → gmap (str * str) str)
  (w : world) : world :=
  World (platform w) (home w) (dirs w) (files w) (f (keyring w)) (rng w)
        (journal w).
Definition set_rng (e : entropy) (w : world) : world :=
  World (platform w) (home w) (dirs w) (files w) (keyring w) e (journal w).
Definition log (ev : event) (w : world) : world :=
  World (platform w) (home w) (dirs w) (files w) (keyring w) (rng w)
        (journal w ++ [ev]).

(** [os.makedirs(p, exist_ok=True)]: [p] and every missing ancestor. *)
Definition ancestors (p : path) : list path :=
  map (λ n, take n p) (seq 1 (length p)).

Definition os_makedirs (p : path) : M world unit :=
  modify (λ w, log (EvMakedirs p) (set_dirs (λ d, d ∪ list_to_set (ancestors p)) w)).

(** [os.path.exists(p)]. *)
Definition os_path_exists (p : path) : M world bool :=
  gets (λ w, bool_decide (is_Some (files w !! p)) || bool_decide (p ∈ dirs w)).

(** [open(p)] in text mode followed by reading the whole file, as
    [json.load] does: the octets are decoded with the locale codec. *)
Definition read_text (p : path) : M world str := λ w,
  match files w !! p with
  | Some content =>
    match locale_decode content with
    | Some text => (Ok text, w)
    | None => (Raise UnicodeDecodeError, w)
    end
  | None => (Raise OSError, w)
  end.

(** [open(file=p, mode='w')] followed by writing [text] and closing the
    file: opening truncates, so text that the codec cannot encode leaves an
    empty file behind. *)
Definition write_text (p : path) (text : str) : M world unit := λ w,
  match locale_encode text with
  | Some content =>
    (Ok tt, log (EvFileWrite p content) (set_files (insert p content) w))
  | None =>
    (Raise UnicodeEncodeError,
     log (EvFileWrite p []) (set_files (insert p []) w))
  end.

(** [json.load(fp)]. *)
Definition json_load (p : path) : M world json :=
  text ← read_text p;
  match json_loads text with
  | Some v => mret v
  | None => raise JSONDecodeError
  end.

(** [json.dump(v, fp)] into a file opened for writing. *)
Definition json_dump (v : json) (p : path) : M world unit :=
  write_text p (json_dumps v).

(** [keyring.get_password] and [keyring.set_password]. *)
Definition keyring_get_password (service username : str)
  : M world (option str) :=
  gets (λ w, keyring w !! (service, username)).

Definition keyring_set_password (service username password : str)
  : M world unit :=
  modify (λ w, log (EvSetPassword service username password)
                 (set_keyring (insert (service, username) password) w)).

(** [Fernet.generate_key()], [Fernet(key)], and the two methods of the
    object, which is represented by its key. *)
Definition Fernet_generate_key : M world bytes := λ w,
  let '(k, e) := generate_key (rng w) in (Ok k, set_rng e w).

Definition Fernet (key : bytes) : result bytes :=
  if valid_key key then Ok key else Raise ValueError.

Definition Fernet_encrypt (f : bytes) (data : bytes) : M world bytes := λ w,
  let '(c, e) := encrypt f data (rng w) in (Ok c, set_rng e w).

Definition Fernet_decrypt (f : bytes) (token : bytes) : result bytes :=
  match decrypt f token with
  | Some data => Ok data
  | None => Raise InvalidToken
  end.

(** ** [TokenManager] *)

Definition DEFAULT_SERVICE_NAME : string := "arcpy_auth_manager".
Definition _service_name : string := DEFAULT_SERVICE_NAME.

Record TokenManager := Build_TokenManager {
  base_storage_folder : path;
  json_storage : path;
  json_data : json
}.

Definition set_json_data (v : json) (self : TokenManager) : TokenManager :=
  Build_TokenManager (base_storage_folder self) (json_storage self) v.

(** A method runs on the object and the world. *)
Abbreviation method := (M (TokenManager * world)).

Definition self_ {A} (f : TokenManager → A) : method A := gets (λ st, f st.1).

(** [_get_json_storage], lines 84-97.  It reads [self.json_storage] only,
    and runs before [self.json_data] exists. *)
Definition _get_json_storage (json_storage : path) : M world json :=
  present ← os_path_exists json_storage;
  if (present : bool) then
    try_except (json_load json_storage)
      (λ e, match e with JSONDecodeError => true | _ => false end)
      (mret (JObj []))
  else mret (JObj []).

(** [__init__], lines 73-82. *)
Definition __init__ : M world TokenManager :=
  sys_platform ← gets platform;
  base ←
    (if decide (sys_platform = py "win32") then
       h ← gets home;
       let base := (h / "AppData" / "Roaming" / _service_name)%path in
       os_makedirs base;;
       mret base
     else raise NotImplementedError);
  let storage := (base / "auth_data.json")%path in
  data ← _get_json_storage storage;
  mret (Build_TokenManager base storage data).

(** [_write_json_storage], lines 99-101. *)
Definition _write_json_storage : method unit :=
  p ← self_ json_storage;
  d ← self_ json_data;
  on_snd (json_dump d p).

(** [_get_key], lines 103-105. *)
Definition _get_key (username : str) : method bytes :=
  d ← self_ json_data;
  v ← lift_result (getitem d username);
  lift_result (value_encode_ascii v).

(** [store], lines 107-133. *)
Definition store (username token : str) : method unit :=
  crypt_key ← on_snd Fernet_generate_key;
  key_text ← lift_result (bytes_decode_utf8 crypt_key);
  d ← self_ json_data;
  d' ← lift_result (setitem d username (JStr key_text));
  modify (λ st, (set_json_data d' st.1, st.2));;
  _write_json_storage;;
  encrypter ← lift_result (Fernet crypt_key);
  data ← lift_result (str_encode_ascii token);
  sealed ← on_snd (Fernet_encrypt encrypter data);
  encrypted_token ← lift_result (bytes_decode_utf8 sealed);
  on_snd (keyring_set_password (py _service_name) username encrypted_token).

(** [retrieve_current_token], lines 135-139. *)
Definition retrieve_current_token (username : str) : method bytes :=
  password ← on_snd (keyring_get_password (py _service_name) username);
  encrypted_token ←
    match password with
    | Some s => lift_result (str_encode_ascii s)
    | None => raise (AttributeError NoneType (py "encode"))
    end;
  key ← _get_key username;
  decrypter ← lift_result (Fernet key);
  lift_result (Fernet_decrypt decrypter encrypted_token).

(** ** What the properties are stated with *)

(** The path of the registry file in a world. *)
Definition registry_path (w : world) : path :=
  (home w / "AppData" / "Roaming" / _service_name / "auth_data.json")%path.

(** The world once [__init__] has made the storage folder. *)
Definition after_makedirs (w : world) : world :=
  let base := (home w / "AppData" / "Roaming" / _service_name)%path in
  log (EvMakedirs base) (set_dirs (λ d, d ∪ list_to_set (ancestors base)) w).











End Vault.

(** ** Reference instances of the interfaces

    One model of each library, small enough to compute with.  They meet
    the laws of the interfaces (see [ReferenceLaws]), and they are what the
    closed examples at the end run on. *)

Module Reference.

(** *** Windows-1252, the ANSI code page of Western installations *)

Definition cp1252_high : list (option N) :=
  [ Some 8364; None;      Some 8218; Some 402;  Some 8222; Some 8230;
    Some 8224; Some 8225; Some 710;  Some 8240; Some 352;  Some 8249;
    Some 338;  None;      Some 381;  None;      None;      Some 8216;
    Some 8217; Some 8220; Some 8221; Some 8226; Some 8211; Some 8212;
    Some 732;  Some 8482; Some 353;  Some 8250; Some 339;  None;
    Some 382;  Some 376 ].

Definition cp1252_decode_byte (b : byte) : option N :=
  let n := Byte.to_N b in
  if (n <? 128) || (160 <=? n) then Some n
  else nth (N.to_nat (n - 128)) cp1252_high None.

Definition cp1252_encode_char (c : N) : option byte :=
  if (c <? 128) || ((160 <=? c) && (c <? 256)) then Byte.of_N c
  else match list_find (λ x, x = Some c) cp1252_high with
       | Some (i, _) => Byte.of_N (128 + N.of_nat i)
       | None => None
       end.

Definition cp1252_decode (b : bytes) : option str := mapM cp1252_decode_byte b.
Definition cp1252_encode (s : str) : option bytes := mapM cp1252_encode_char s.

(** *** A serialisation of JSON values

    Values are numbered through stdpp's [gen_tree], and the number is
    written in binary digits. *)

Fixpoint to_tree (v : json) : gen_tree (Z + str) :=
  match v with
  | JNull => GenNode 0 []
  | JBool true => GenNode 1 []
  | JBool false => GenNode 2 []
  | JInt z => GenLeaf (inl z)
  | JStr s => GenLeaf (inr s)
  | JList l => GenNode 3 (map to_tree l)
  | JObj m =>
    GenNode 4 (map (λ kv, match kv with
                          | (k, x) => GenNode 5 [GenLeaf (inr k); to_tree x]
                          end) m)
  end.

Fixpoint of_tree (t : gen_tree (Z + str)) : option json :=
  match t with
  | GenLeaf (inl z) => Some (JInt z)
  | GenLeaf (inr s) => Some (JStr s)
  | GenNode 0 [] => Some JNull
  | GenNode 1 [] => Some (JBool true)
  | GenNode 2 [] => Some (JBool false)
  | GenNode 3 ts => JList <$> mapM of_tree ts
  | GenNode 4 ts =>
    JObj <$> mapM (λ t', match t' with
                         | GenNode 5 [GenLeaf (inr k); x] => pair k <$> of_tree x
                         | _ => None
                         end) ts
  | _ => None
  end.

Fixpoint digits (p : positive) : str :=
  match p with
  | xH => []
  | xO q => 48 :: digits q
  | xI q => 49 :: digits q
  end.

Fixpoint undigits (s : str) : option positive :=
  match s with
  | [] => Some xH
  | c :: s' =>
    if decide (c = 48) then xO <$> undigits s'
    else if decide (c = 49) then xI <$> undigits s'
    else None
  end.

Definition dumps (v : json) : str := digits (encode (to_tree v)).

Definition loads (s : str) : option json :=
  p ← undigits s; t ← decode p; of_tree t.

(** *** A stand-in for Fernet

    A key is four octets of text.  A token is the key, a nonce, and the data
    with every octet written as two letters; [decrypt] accepts a token only
    under the key it starts with.  The entropy is a counter. *)

Definition letter (n : N) : byte :=
  default x61 (Byte.of_N (97 + n mod 16)).

Definition armor (b : byte) : bytes :=
  [letter (Byte.to_N b / 16); letter (Byte.to_N b)].

Definition unarmor2 (hi lo : byte) : option byte :=
  let h := Byte.to_N hi in
  let l := Byte.to_N lo in
  if (97 <=? h) && (h <? 113) && (97 <=? l) && (l <? 113)
  then Byte.of_N ((h - 97) * 16 + (l - 97))
  else None.

Fixpoint unarmor (c : bytes) : option bytes :=
  match c with
  | [] => Some []
  | hi :: lo :: r => b ← unarmor2 hi lo; cons b <$> unarmor r
  | _ => None
  end.

Definition octet (n : N) : byte := default x00 (Byte.of_N (n mod 256)).

Definition toy_generate_key (e : N) : bytes * N :=
  (armor (octet (e / 256)) ++ armor (octet e), e + 1).

Definition toy_valid_key (k : bytes) : bool :=
  bool_decide (length k = 4%nat) && ascii_bytes k.

Definition toy_encrypt (k data : bytes) (e : N) : bytes * N :=
  (k ++ armor (octet e) ++ concat (map armor data), e + 1).

Definition toy_decrypt (k token : bytes) : option bytes :=
  if bool_decide (map Byte.to_N (take 4 token) = map Byte.to_N k)
  then unarmor (drop 6 token)
  else None.

(** *** The three instances, and a few worlds to run the class in *)

Definition cp1252 : TextCodec :=
  {| locale_encode := cp1252_encode; locale_decode := cp1252_decode |}.

Definition tree_json : JsonLib :=
  {| json_dumps := dumps; json_loads := loads |}.

Definition toy_fernet : FernetLib :=
  {| entropy := N;
     generate_key := toy_generate_key;
     valid_key := toy_valid_key;
     encrypt := toy_encrypt;
     decrypt := toy_decrypt |}.

#[local] Existing Instance cp1252.
#[local] Existing Instance tree_json.
#[local] Existing Instance toy_fernet.

(** A Windows account with nothing stored yet. *)
Definition fresh_world : world :=
  World (py "win32") [py "C:"; py "Users"; py "me"] ∅ ∅ ∅ 7 [].

Definition fresh_manager : TokenManager :=
  Build_TokenManager
    (home fresh_world / "AppData" / "Roaming" / _service_name)%path
    (registry_path fresh_world)
    (JObj []).

(** The process after [TokenManager()], and after
    [store("alice", "tok-123")]. *)
Definition st0 : TokenManager * world :=
  (fresh_manager, after_makedirs fresh_world).

Definition st1 : TokenManager * world :=
  (store (py "alice") (py "tok-123") st0).2.

(** The same account with a registry file the code page cannot decode
    (octet 0x81 is undefined in Windows-1252), and with one that holds the
    JSON list [[]]. *)
Definition garbled_world : world :=
  World (py "win32") [py "C:"; py "Users"; py "me"] ∅
        {[ registry_path fresh_world := [x81] ]} ∅ 7 [].

Definition list_file : bytes :=
  default [] (cp1252_encode (dumps (JList []))).

Definition list_world : world :=
  World (py "win32") [py "C:"; py "Users"; py "me"] ∅
        {[ registry_path fresh_world := list_file ]} ∅ 7 [].

End Reference.

(** * Properties *)

(** ** The codecs on ASCII text *)

Lemma ascii_char_inv c x : ascii_char c = Some x → c < 128 ∧ Byte.to_N x = c.
Proof.
  unfold ascii_char. destruct (N.ltb_spec c 128); [|done].
  intros Hx. split; [done|]. by apply Byte.to_of_N.
Qed.


Lemma ascii_encode_to_N b :
  ascii_bytes b = true → ascii_encode (map Byte.to_N b) = Some b.
Proof.
  intros Hb. unfold ascii_encode. apply mapM_Some.
  induction b as [|x b IH]; simpl in *; [constructor|].
  apply andb_prop in Hb as [Hx Hb]. constructor; [|by apply IH].
  unfold ascii_char. rewrite Hx. apply Byte.of_to_N.
Qed.

Lemma utf8_decode_ascii b :
  ascii_bytes b = true → utf8_decode b = Some (map Byte.to_N b).
Proof.
  induction b as [|x b IH]; simpl; [done|].
  intros [Hx Hb]%andb_prop. rewrite Hx, (IH Hb). done.
Qed.

(** Text that came out of [utf-8] decoding ASCII octets encodes back to
    them. *)
Lemma utf8_ascii_roundtrip b s :
  ascii_bytes b = true → utf8_decode b = Some s → ascii_encode s = Some b.
Proof.
  intros Hb. rewrite (utf8_decode_ascii b Hb). intros [= <-].
  by apply ascii_encode_to_N.
Qed.




(** ** Dictionaries *)

(** Induction on a JSON value that reaches the values inside lists and
    dictionaries. *)
Lemma json_nested_ind (P : json → Prop) :
  P JNull → (∀ b, P (JBool b)) → (∀ z, P (JInt z)) → (∀ s, P (JStr s)) →
  (∀ l, Forall P l → P (JList l)) →
  (∀ m, Forall (λ kv, P kv.2) m → P (JObj m)) →
  ∀ v, P v.
Proof.
  intros Hnull Hbool Hint Hstr Hlist Hobj. fix go 1.
  intros [|b|z|s|l|m].
  - exact Hnull.
  - apply Hbool.
  - apply Hint.
  - apply Hstr.
  - apply Hlist. induction l as [|x l IHl]; constructor; [apply go|exact IHl].
  - apply Hobj.
    induction m as [|[k x] m IHm]; constructor; [apply go|exact IHm].
Qed.

Lemma dict_get_set_eq m k v : dict_get (dict_set m k v) k = Some v.
Proof.
  induction m as [|[k' v'] m IH]; simpl.
  - by rewrite decide_True.
  - destruct (decide (k' = k)) as [->|Hne]; simpl.
    + by rewrite decide_True.
    + by rewrite decide_False.
Qed.

Lemma dict_get_set_ne m k k' v :
  k ≠ k' → dict_get (dict_set m k v) k' = dict_get m k'.
Proof.
  intros Hne. induction m as [|[k0 v0] m IH]; simpl.
  - by rewrite decide_False.
  - destruct (decide (k0 = k)) as [->|Hne0]; simpl.
    + by rewrite !decide_False.
    + destruct (decide (k0 = k')); [done|apply IH].
Qed.

(** ** The reference instances meet the laws *)

Module ReferenceFacts.
Import Reference.

Lemma cp1252_encode_ascii s b :
  ascii_encode s = Some b → cp1252_encode s = Some b.
Proof.
  unfold ascii_encode, cp1252_encode. rewrite !mapM_Some.
  apply Forall2_impl. intros c x [Hlt Hx]%ascii_char_inv.
  unfold cp1252_encode_char.
  destruct (N.ltb_spec c 128); [|lia]. simpl.
  rewrite <- Hx. apply Byte.of_to_N.
Qed.

Lemma cp1252_decode_ascii s b :
  ascii_encode s = Some b → cp1252_decode b = Some s.
Proof.
  unfold ascii_encode, cp1252_decode. rewrite !mapM_Some.
  intros Hs. apply Forall2_flip. revert Hs.
  apply Forall2_impl. intros c x [Hlt Hx]%ascii_char_inv.
  unfold cp1252_decode_byte. rewrite Hx.
  by destruct (N.ltb_spec c 128); [|lia].
Qed.

Lemma undigits_digits p : undigits (digits p) = Some p.
Proof. induction p as [p IH|p IH|]; simpl; by rewrite ?IH. Qed.

Lemma digits_ascii p : is_Some (ascii_encode (digits p)).
Proof.
  induction p as [p [b IH]|p [b IH]|]; simpl; unfold ascii_encode in *;
    simpl; rewrite ?IH; eauto.
Qed.

Lemma of_to_tree v : of_tree (to_tree v) = Some v.
Proof.
  induction v as [|[]| | |l IH|m IH] using json_nested_ind; simpl; try done.
  - replace (mapM of_tree (map to_tree l)) with (Some l); [done|].
    symmetry. apply mapM_Some.
    induction IH; constructor; auto.
  - match goal with |- _ <$> ?x = _ => replace x with (Some m) end; [done|].
    symmetry. apply mapM_Some.
    induction IH as [|[k x] m Hx _ IHm]; constructor; [|done].
    simpl in *. by rewrite Hx.
Qed.

Lemma loads_dumps v : loads (dumps v) = Some v.
Proof.
  unfold loads, dumps. rewrite undigits_digits. simpl.
  rewrite decode_encode. simpl. apply of_to_tree.
Qed.

Lemma armor_ascii b : ascii_bytes (armor b) = true.
Proof. destruct b; reflexivity. Qed.

Lemma unarmor2_armor b :
  unarmor2 (letter (Byte.to_N b / 16)) (letter (Byte.to_N b)) = Some b.
Proof. destruct b; reflexivity. Qed.

Lemma ascii_bytes_app a b :
  ascii_bytes (a ++ b) = ascii_bytes a && ascii_bytes b.
Proof. apply forallb_app. Qed.

Lemma armor_all_ascii data : ascii_bytes (concat (map armor data)) = true.
Proof.
  induction data as [|b data IH]; [done|].
  cbn [map concat]. by rewrite ascii_bytes_app, armor_ascii, IH.
Qed.

Lemma unarmor_armor data : unarmor (concat (map armor data)) = Some data.
Proof.
  induction data as [|b data IH]; [done|].
  cbn [map concat armor app unarmor]. rewrite unarmor2_armor. simpl.
  by rewrite IH.
Qed.

Lemma toy_generate_key_valid e : toy_valid_key (toy_generate_key e).1 = true.
Proof.
  unfold toy_valid_key, toy_generate_key. cbn [fst].
  by rewrite ascii_bytes_app, !armor_ascii.
Qed.

Lemma toy_generate_key_ascii e : ascii_bytes (toy_generate_key e).1 = true.
Proof.
  unfold toy_generate_key. cbn [fst]. by rewrite ascii_bytes_app, !armor_ascii.
Qed.

Lemma toy_encrypt_ascii k data e :
  toy_valid_key k = true → ascii_bytes (toy_encrypt k data e).1 = true.
Proof.
  intros [_ Hk]%andb_prop. unfold toy_encrypt. cbn [fst].
  by rewrite !ascii_bytes_app, Hk, armor_ascii, armor_all_ascii.
Qed.

Lemma toy_decrypt_encrypt k data e :
  toy_valid_key k = true → toy_decrypt k (toy_encrypt k data e).1 = Some data.
Proof.
  intros [Hlen _]%andb_prop. apply bool_decide_eq_true in Hlen.
  unfold toy_decrypt, toy_encrypt. cbn [fst].
  rewrite take_app_length' by done. rewrite bool_decide_eq_true_2 by done.
  rewrite drop_app_ge by (rewrite Hlen; lia). rewrite Hlen.
  change (drop (6 - 4) (armor (octet e) ++ ?r)) with r.
  apply unarmor_armor.
Qed.


End ReferenceFacts.

Module ReferenceLaws.
Import Reference ReferenceFacts.

Lemma cp1252_laws : @TextCodecLaws cp1252.
Proof. split; [apply cp1252_encode_ascii|apply cp1252_decode_ascii]. Qed.

Lemma tree_json_laws : @JsonLaws tree_json.
Proof. split; [intros v; apply digits_ascii|apply loads_dumps]. Qed.

Lemma toy_fernet_laws : @FernetLaws toy_fernet.
Proof.
  split.
  - apply toy_generate_key_valid.
  - apply toy_generate_key_ascii.
  - apply toy_encrypt_ascii.
  - apply toy_decrypt_encrypt.
Qed.


End ReferenceLaws.

(** ** The methods, case by case *)

Create HintDb vault_ops.
#[global] Hint Unfold mbind M_bind mret M_ret raise gets modify lift_result
  try_except on_snd self_ : vault_ops.
#[global] Hint Unfold os_makedirs os_path_exists read_text write_text json_load
  json_dump keyring_get_password keyring_set_password Fernet_generate_key
  Fernet Fernet_encrypt Fernet_decrypt str_encode_ascii bytes_decode_utf8
  value_encode_ascii getitem setitem : vault_ops.
#[global] Hint Unfold log set_dirs set_files set_keyring set_rng set_json_data
  : vault_ops.

(** Unfold the state-and-exception plumbing and the library calls. *)
Ltac run := autounfold with vault_ops; simpl.

#[global] Arguments utf8_decode : simpl never.
#[global] Arguments ascii_encode : simpl never.

Section Properties.
Context `{TextCodec} `{JsonLib} `{FernetLib}.
Context `{!TextCodecLaws} `{!JsonLaws} `{!FernetLaws}.

Implicit Types (w : world) (self : TokenManager) (st : TokenManager * world).
Implicit Types (username token : str) (m : list (str * json)).

(** *** Loading the registry *)

Lemma get_json_storage_absent p w :
  files w !! p = None → p ∉ dirs w →
  _get_json_storage p w = (Ok (JObj []), w).
Proof.
  intros Hf Hd. unfold _get_json_storage. run. rewrite Hf.
  rewrite bool_decide_eq_false_2 by (by intros [? ?]).
  by rewrite bool_decide_eq_false_2.
Qed.

Lemma get_json_storage_present p w content :
  files w !! p = Some content →
  _get_json_storage p w =
    (match locale_decode content with
     | Some text => Ok (default (JObj []) (json_loads text))
     | None => Raise UnicodeDecodeError
     end, w).
Proof.
  intros Hf. unfold _get_json_storage. run. rewrite Hf.
  rewrite bool_decide_eq_true_2 by eauto. cbn. rewrite Hf.
  destruct (locale_decode content) as [text|]; [|done].
  by destruct (json_loads text).
Qed.

Lemma get_json_storage_world p w : (_get_json_storage p w).2 = w.
Proof.
  unfold _get_json_storage. run.
  destruct (_ || _); simpl; [|done].
  destruct (files w !! p) as [content|]; [|done].
  destruct (locale_decode content) as [text|]; [|done].
  by destruct (json_loads text).
Qed.

Lemma get_json_storage_ext p w w' :
  files w = files w' → dirs w = dirs w' →
  (_get_json_storage p w).1 = (_get_json_storage p w').1.
Proof.
  intros Hf Hd. destruct w, w'. cbn in Hf, Hd. subst.
  unfold _get_json_storage. run.
  destruct (_ || _); simpl; [|done].
  match goal with |- context [?fs !! p] => destruct (fs !! p) as [content|] end;
    [|done].
  destruct (locale_decode content) as [text|]; [|done].
  by destruct (json_loads text).
Qed.


(** *** [store] *)

(** The three ways a call can go: the registry is not a dictionary; the
    token is not ASCII; the call succeeds. *)
Lemma store_not_dict self w username token :
  (∀ m, json_data self ≠ JObj m) →
  store username token (self, w) =
    (Raise TypeError, (self, set_rng (generate_key (rng w)).2 w)).
Proof.
  intros Hm.
  pose proof (generate_key_ascii (rng w)) as Hascii.
  destruct (generate_key (rng w)) as [k e1] eqn:Hk. cbn [fst snd] in *.
  unfold store. run. rewrite Hk. simpl.
  rewrite (utf8_decode_ascii k Hascii).
  destruct (json_data self) as [| | | | |m]; try done. by destruct (Hm m).
Qed.

Lemma store_non_ascii self w m username token :
  json_data self = JObj m →
  ascii_encode token = None →
  ∃ content,
    let k := (generate_key (rng w)).1 in
    let d' := JObj (dict_set m username (JStr (map Byte.to_N k))) in
    ascii_encode (json_dumps d') = Some content ∧
    valid_key k = true ∧ ascii_bytes k = true ∧
    store username token (self, w) =
      (Raise UnicodeEncodeError,
       (set_json_data d' self,
        World (platform w) (home w) (dirs w)
          (<[json_storage self := content]> (files w))
          (keyring w)
          (generate_key (rng w)).2
          (journal w ++ [EvFileWrite (json_storage self) content]))).
Proof.
  intros Hm Ht.
  pose proof (generate_key_valid (rng w)) as Hvalid.
  pose proof (generate_key_ascii (rng w)) as Hascii.
  destruct (generate_key (rng w)) as [k e1] eqn:Hk. cbn [fst snd] in *.
  destruct (json_dumps_ascii (JObj (dict_set m username (JStr (map Byte.to_N k)))))
    as [content Hcontent].
  exists content. split_and!; try done.
  unfold store, _write_json_storage. run. rewrite Hk. simpl.
  rewrite (utf8_decode_ascii k Hascii), Hm. simpl.
  rewrite (locale_encode_ascii _ _ Hcontent). simpl.
  by rewrite Hvalid, Ht.
Qed.

Lemma store_dict self w m username token data :
  json_data self = JObj m →
  ascii_encode token = Some data →
  ∃ content,
    let k := (generate_key (rng w)).1 in
    let e1 := (generate_key (rng w)).2 in
    let d' := JObj (dict_set m username (JStr (map Byte.to_N k))) in
    let c := (encrypt k data e1).1 in
    ascii_encode (json_dumps d') = Some content ∧
    valid_key k = true ∧ ascii_bytes k = true ∧ ascii_bytes c = true ∧
    store username token (self, w) =
      (Ok tt,
       (set_json_data d' self,
        World (platform w) (home w) (dirs w)
          (<[json_storage self := content]> (files w))
          (<[(py _service_name, username) := map Byte.to_N c]> (keyring w))
          (encrypt k data e1).2
          (journal w ++ [EvFileWrite (json_storage self) content;
                         EvSetPassword (py _service_name) username
                           (map Byte.to_N c)]))).
Proof.
  intros Hm Ht.
  pose proof (generate_key_valid (rng w)) as Hvalid.
  pose proof (generate_key_ascii (rng w)) as Hascii.
  destruct (generate_key (rng w)) as [k e1] eqn:Hk. cbn [fst snd] in *.
  pose proof (encrypt_ascii k data e1 Hvalid) as Hcascii.
  destruct (json_dumps_ascii (JObj (dict_set m username (JStr (map Byte.to_N k)))))
    as [content Hcontent].
  exists content. split_and!; try done.
  unfold store, _write_json_storage. run. rewrite Hk. simpl.
  rewrite (utf8_decode_ascii k Hascii), Hm. simpl.
  rewrite (locale_encode_ascii _ _ Hcontent). simpl.
  rewrite Hvalid, Ht. simpl.
  destruct (encrypt k data e1) as [c e2]. cbn [fst snd] in *.
  rewrite (utf8_decode_ascii c Hcascii). simpl.
  by rewrite <- app_assoc.
Qed.

(** *** [retrieve_current_token] *)

Lemma retrieve_state username st : (retrieve_current_token username st).2 = st.
Proof.
  destruct st as [self w]. unfold retrieve_current_token, _get_key. run.
  destruct (keyring w !! _) as [c|]; [|done]. cbn.
  destruct (ascii_encode c) as [cb|]; [|done]. cbn.
  destruct (json_data self) as [| | | | |m]; try done.
  destruct (dict_get m username) as [[| | |kt| |]|]; try done. cbn.
  destruct (ascii_encode kt) as [kb|]; [|done]. cbn.
  destruct (valid_key kb); [|done]. cbn.
  by destruct (decrypt kb cb).
Qed.



Lemma retrieve_no_key self w m username c cb :
  keyring w !! (py _service_name, username) = Some c →
  ascii_encode c = Some cb →
  json_data self = JObj m →
  dict_get m username = None →
  (retrieve_current_token username (self, w)).1 = Raise (KeyError username).
Proof.
  intros Hk Hc Hm Hu. unfold retrieve_current_token, _get_key. run.
  rewrite Hk. simpl. rewrite Hc. simpl. by rewrite Hm, Hu.
Qed.

Lemma retrieve_with_key self w m username c cb kt kb :
  keyring w !! (py _service_name, username) = Some c →
  ascii_encode c = Some cb →
  json_data self = JObj m →
  dict_get m username = Some (JStr kt) →
  ascii_encode kt = Some kb →
  valid_key kb = true →
  (retrieve_current_token username (self, w)).1 = Fernet_decrypt kb cb.
Proof.
  intros Hk Hc Hm Hu Hkt Hv. unfold retrieve_current_token, _get_key. run.
  rewrite Hk. simpl. rewrite Hc. simpl. rewrite Hm, Hu. simpl.
  rewrite Hkt. simpl. rewrite Hv. simpl.
  by destruct (decrypt kb cb).
Qed.

(** ** The store / retrieve cycle *)

(** C1, as amended.  Round trip for ASCII tokens: when the registry is a
    dictionary and the token consists of ASCII characters only, [store]
    succeeds and a following [retrieve_current_token] for the same user
    returns the token's characters, as the [bytes] object
    [token.encode('ascii')], leaving the state as [store] left it. *)
Theorem store_then_retrieve self w m username token data :
  json_data self = JObj m →
  ascii_encode token = Some data →
  ∃ st',
    store username token (self, w) = (Ok tt, st') ∧
    retrieve_current_token username st' = (Ok data, st').
Proof.
  intros Hm Ht.
  destruct (store_dict self w m username token data Hm Ht)
    as (content & _ & Hvalid & Hascii & Hcascii & Hstore).
  eexists. split; [exact Hstore|].
  apply injective_projections; [|apply retrieve_state]. cbn [fst].
  erewrite retrieve_with_key.
  - unfold Fernet_decrypt. by rewrite decrypt_encrypt.
  - cbn [keyring]. apply lookup_insert_eq.
  - by apply ascii_encode_to_N.
  - reflexivity.
  - apply dict_get_set_eq.
  - by apply ascii_encode_to_N.
  - done.
Qed.


(** C4.  Desynchronised stores: the keyring holds a token for the user (text
    of ASCII characters, as every Fernet token is) and the registry, a
    dictionary, has no entry for the user.  The lookup [self.json_data[username]]
    raises [KeyError], the failure that the specification names
    UnknownIdentity, and not the one it names CredentialNotFound. *)
Theorem retrieve_without_key self w m username c cb :
  keyring w !! (py _service_name, username) = Some c →
  ascii_encode c = Some cb →
  json_data self = JObj m →
  dict_get m username = None →
  ∃ e,
    retrieve_current_token username (self, w) = (Raise e, (self, w)) ∧
    e = KeyError username ∧
    error_kind e = UnknownIdentity ∧
    error_kind e ≠ CredentialNotFound.
Proof.
  intros Hk Hc Hm Hu. eexists. split_and!; [|reflexivity|reflexivity|done].
  apply injective_projections; [|apply retrieve_state].
  by eapply retrieve_no_key.
Qed.

(** C7.  [retrieve_current_token] is read-only: whatever it answers, the
    manager (with its registry in memory) and the world (registry file,
    keyring, journal of writes) are as before. *)
Theorem retrieve_is_read_only username st :
  let st' := (retrieve_current_token username st).2 in
  st' = st ∧
  json_data st'.1 = json_data st.1 ∧
  files st'.2 = files st.2 ∧
  keyring st'.2 = keyring st.2 ∧
  journal st'.2 = journal st.2.
Proof. cbn zeta. by rewrite retrieve_state. Qed.


(** ** Tampering *)


(** ** A token that is not ASCII *)


(** ** Construction *)

Lemma init_other_platform w :
  platform w ≠ py "win32" → __init__ w = (Raise NotImplementedError, w).
Proof. intros Hp. unfold __init__. run. by rewrite decide_False. Qed.

Lemma init_win32 w :
  platform w = py "win32" →
  __init__ w =
    (match (_get_json_storage (registry_path w) (after_makedirs w)).1 with
     | Ok data =>
       Ok (Build_TokenManager
             (home w / "AppData" / "Roaming" / _service_name)%path
             (registry_path w) data)
     | Raise e => Raise e
     end, after_makedirs w).
Proof.
  intros Hp.
  pose proof (get_json_storage_world (registry_path w) (after_makedirs w)) as Hw.
  unfold __init__, after_makedirs, registry_path in *. run.
  unfold log, set_dirs in Hw. simpl in Hw.
  destruct (decide (platform w = py "win32")) as [_|?]; [|done]. simpl.
  match goal with
  | |- context [_get_json_storage ?p ?w1] =>
    destruct (_get_json_storage p w1) as [[data|e] w2]
  end; simpl in *; by subst.
Qed.

(** The registry file of a world as [__init__] will see it: making the
    folder touches no file. *)
Lemma after_makedirs_files w : files (after_makedirs w) = files w.
Proof. done. Qed.

(** A registry file whose octets the locale codec cannot decode stops
    construction: [UnicodeDecodeError] is not [JSONDecodeError]. *)
Lemma init_undecodable w content :
  platform w = py "win32" →
  files w !! registry_path w = Some content →
  locale_decode content = None →
  __init__ w = (Raise UnicodeDecodeError, after_makedirs w).
Proof.
  intros Hp Hf Hd. rewrite (init_win32 w Hp).
  rewrite (get_json_storage_present _ _ content) by done.
  cbn [fst]. by rewrite Hd.
Qed.

(** The parts of registry recovery that the code does deliver: no file, or
    a file of text that is not JSON, gives an empty registry, and [store]
    with an ASCII token then succeeds. *)
Lemma init_recovers w :
  platform w = py "win32" →
  (files w !! registry_path w = None ∧ registry_path w ∉ dirs (after_makedirs w))
  ∨ (∃ content text,
       files w !! registry_path w = Some content ∧
       locale_decode content = Some text ∧ json_loads text = None) →
  ∃ self,
    __init__ w = (Ok self, after_makedirs w) ∧ json_data self = JObj [] ∧
    ∀ username token data,
      ascii_encode token = Some data →
      ∃ st', store username token (self, after_makedirs w) = (Ok tt, st').
Proof.
  intros Hp Hcase. rewrite (init_win32 w Hp).
  assert (Hload : _get_json_storage (registry_path w) (after_makedirs w)
                  = (Ok (JObj []), after_makedirs w)).
  { destruct Hcase as [[Hf Hd]|(content & text & Hf & Hd & Hl)].
    - by apply get_json_storage_absent.
    - rewrite (get_json_storage_present _ _ content) by done.
      by rewrite Hd, Hl. }
  rewrite Hload. cbn [fst].
  set (self := Build_TokenManager _ _ _). exists self.
  split_and!; [done|done|].
  intros username token data Ht.
  destruct (store_dict self (after_makedirs w) [] username token data eq_refl Ht)
    as (content' & _ & _ & _ & _ & Hs).
  eauto.
Qed.

(** C10.  A registry file that holds valid JSON other than an object, a list
    for instance: [__init__] keeps the parsed value as the registry, and
    [store] on that manager raises [TypeError] for every user and token,
    writing neither the file nor the keyring. *)
Theorem non_object_registry w content text v :
  platform w = py "win32" →
  files w !! registry_path w = Some content →
  locale_decode content = Some text →
  json_loads text = Some v →
  (∀ m, v ≠ JObj m) →
  ∃ self w',
    __init__ w = (Ok self, w') ∧
    json_data self = v ∧
    ∀ username token, ∃ w'',
      store username token (self, w') = (Raise TypeError, (self, w'')) ∧
      files w'' = files w' ∧ keyring w'' = keyring w' ∧
      journal w'' = journal w'.
Proof.
  intros Hp Hf Hd Hl Hv. rewrite (init_win32 w Hp).
  rewrite (get_json_storage_present _ _ content) by done.
  rewrite Hd, Hl. cbn [fst default].
  eexists _, _. split_and!; [done|done|].
  intros username token. eexists. by rewrite store_not_dict.
Qed.

(** ** Memory and disk *)


(** ** Further properties of the methods *)

(** *** Helpers *)

(** [retrieve_current_token], check by check. *)
Lemma retrieve_unfold self w username :
  (retrieve_current_token username (self, w)).1 =
    match keyring w !! (py _service_name, username) with
    | None => Raise (AttributeError NoneType (py "encode"))
    | Some c =>
      match ascii_encode c with
      | None => Raise UnicodeEncodeError
      | Some cb =>
        match getitem (json_data self) username with
        | Raise e => Raise e
        | Ok v =>
          match value_encode_ascii v with
          | Raise e => Raise e
          | Ok kb =>
            if valid_key kb then Fernet_decrypt kb cb else Raise ValueError
          end
        end
      end
    end.
Proof.
  unfold retrieve_current_token, _get_key. run.
  destruct (keyring w !! _) as [c|]; [|done]. simpl.
  destruct (ascii_encode c) as [cb|]; [|done]. simpl.
  destruct (json_data self) as [| | | | |m]; try done.
  destruct (dict_get m username) as [[| | |kt| |]|]; try done. simpl.
  destruct (ascii_encode kt) as [kb|]; [|done]. simpl.
  destruct (valid_key kb); [|done]. simpl.
  by destruct (decrypt kb cb).
Qed.

(** The answer depends on the user's keyring entry and registry entry
    only. *)
Lemma retrieve_result_ext self w self' w' username :
  keyring w !! (py _service_name, username)
    = keyring w' !! (py _service_name, username) →
  getitem (json_data self) username = getitem (json_data self') username →
  (retrieve_current_token username (self, w)).1
    = (retrieve_current_token username (self', w')).1.
Proof. intros Hk Hg. by rewrite !retrieve_unfold, Hk, Hg. Qed.

Lemma get_json_storage_errors p w e :
  (_get_json_storage p w).1 = Raise e → e = UnicodeDecodeError ∨ e = OSError.
Proof.
  unfold _get_json_storage. run.
  destruct (_ || _); simpl; [|done].
  destruct (files w !! p) as [content|]; [|intros [= <-]; by right].
  destruct (locale_decode content) as [text|]; [|intros [= <-]; by left].
  by destruct (json_loads text).
Qed.

Lemma ancestors_prefix (p : path) n :
  (1 ≤ n ≤ length p)%nat → take n p ∈ ancestors p.
Proof.
  intros Hn. unfold ancestors. apply list_elem_of_fmap. exists n.
  split; [done|]. apply elem_of_seq. lia.
Qed.

Lemma after_makedirs_twice_dirs w :
  dirs (after_makedirs (after_makedirs w)) = dirs (after_makedirs w).
Proof.
  unfold after_makedirs, log, set_dirs. simpl.
  by rewrite <- union_assoc_L, union_idemp_L.
Qed.

(** What a successful [store] leaves behind lets the user's token be read,
    by any manager holding the same registry. *)
Lemma retrieve_from_stored self' w' m username k c data :
  json_data self' = JObj (dict_set m username (JStr (map Byte.to_N k))) →
  keyring w' !! (py _service_name, username) = Some (map Byte.to_N c) →
  valid_key k = true → ascii_bytes k = true → ascii_bytes c = true →
  decrypt k c = Some data →
  retrieve_current_token username (self', w') = (Ok data, (self', w')).
Proof.
  intros Hd Hk Hv Hka Hca Hdec.
  apply injective_projections; [|apply retrieve_state]. cbn [fst].
  erewrite retrieve_with_key; eauto using dict_get_set_eq, ascii_encode_to_N.
  unfold Fernet_decrypt. by rewrite Hdec.
Qed.

(** *** Construction *)

(** X1.  The platform gate of [__init__]: it raises [NotImplementedError]
    exactly when [sys.platform] is not "win32", and then nothing has been
    touched, no folder made and no file read. *)
Theorem init_platform_gate w :
  ((__init__ w).1 = Raise NotImplementedError ↔ platform w ≠ py "win32") ∧
  ((__init__ w).1 = Raise NotImplementedError → (__init__ w).2 = w).
Proof.
  destruct (decide (platform w = py "win32")) as [Hp|Hp].
  - rewrite (init_win32 w Hp). cbn [fst snd].
    assert (Hno : match (_get_json_storage (registry_path w)
                           (after_makedirs w)).1 with
                  | Ok data =>
                    Ok (Build_TokenManager
                          (home w / "AppData" / "Roaming" / _service_name)%path
                          (registry_path w) data)
                  | Raise e => Raise e
                  end ≠ Raise NotImplementedError).
    { destruct (_get_json_storage _ _).1 as [data|e] eqn:Hload; [done|].
      by destruct (get_json_storage_errors _ _ _ Hload) as [-> | ->]. }
    split; [split|]; intros; done.
  - rewrite (init_other_platform w Hp). cbn [fst snd]. by repeat split.
Qed.

(** X2.  What a successful construction has done: the platform is win32,
    the manager's folder is AppData/Roaming/arcpy_auth_manager under the
    home directory and its registry file is auth_data.json in that folder,
    the folder now exists and every directory that existed still does, and
    the only write is that one [os.makedirs]: files and keyring are as
    before. *)
Theorem init_effects w self w' :
  __init__ w = (Ok self, w') →
  platform w = py "win32" ∧
  base_storage_folder self
    = (home w / "AppData" / "Roaming" / "arcpy_auth_manager")%path ∧
  json_storage self = (base_storage_folder self / "auth_data.json")%path ∧
  base_storage_folder self ∈ dirs w' ∧
  dirs w ⊆ dirs w' ∧
  files w' = files w ∧
  keyring w' = keyring w ∧
  journal w' = journal w ++ [EvMakedirs (base_storage_folder self)].
Proof.
  intros Hinit.
  destruct (decide (platform w = py "win32")) as [Hp|Hp];
    [|by rewrite (init_other_platform w Hp) in Hinit].
  rewrite (init_win32 w Hp) in Hinit.
  destruct (_get_json_storage _ (after_makedirs w)).1 as [data|e]; [|done].
  injection Hinit as <- <-. cbn [base_storage_folder json_storage].
  split_and!; try done.
  - unfold after_makedirs, log, set_dirs. cbn [dirs].
    apply elem_of_union_r, elem_of_list_to_set.
    set (base := (home w / "AppData" / "Roaming" / _service_name)%path).
    rewrite <- (firstn_all base) at 1. apply ancestors_prefix.
    unfold base, path_div. rewrite !length_app. simpl. lia.
  - unfold after_makedirs, log, set_dirs. cbn [dirs]. apply union_subseteq_l.
Qed.

(** X3.  Construction can be repeated: a second [TokenManager()] in the
    world that the first one left gives an equal manager (same paths, same
    registry), and leaves directories, files and keyring as they are. *)
Theorem init_repeatable w self w1 :
  __init__ w = (Ok self, w1) →
  ∃ w2,
    __init__ w1 = (Ok self, w2) ∧
    dirs w2 = dirs w1 ∧ files w2 = files w1 ∧ keyring w2 = keyring w1.
Proof.
  intros Hinit.
  destruct (decide (platform w = py "win32")) as [Hp|Hp];
    [|by rewrite (init_other_platform w Hp) in Hinit].
  rewrite (init_win32 w Hp) in Hinit.
  destruct (_get_json_storage _ (after_makedirs w)).1 as [data|e] eqn:Hload;
    [|done].
  injection Hinit as <- <-.
  exists (after_makedirs (after_makedirs w)).
  rewrite (init_win32 (after_makedirs w) Hp).
  change (registry_path (after_makedirs w)) with (registry_path w).
  change (home (after_makedirs w)) with (home w).
  rewrite (get_json_storage_ext _ (after_makedirs (after_makedirs w))
             (after_makedirs w)), Hload;
    [|done|apply after_makedirs_twice_dirs].
  split_and!; [done|apply after_makedirs_twice_dirs|done|done].
Qed.

(** *** The registry file *)


(** *** [store] *)



(** X7.  [store] touches its own records only: whatever it answers, no
    directory is made or removed, every file other than the manager's
    registry file is as before, and so is every keyring entry other than
    the one of the service name "arcpy_auth_manager" and the user. *)
Theorem store_touches_own_records self w username token :
  let w' := (store username token (self, w)).2.2 in
  platform w' = platform w ∧ home w' = home w ∧ dirs w' = dirs w ∧
  (∀ p, p ≠ json_storage self → files w' !! p = files w !! p) ∧
  (∀ service account,
     (service, account) ≠ (py "arcpy_auth_manager", username) →
     keyring w' !! (service, account) = keyring w !! (service, account)).
Proof.
  cbn zeta.
  destruct (json_data self) as [| | | | |m] eqn:Hm;
    try (rewrite store_not_dict by (intros m; by rewrite Hm); done).
  destruct (ascii_encode token) as [data|] eqn:Ht.
  - destruct (store_dict self w m username token data Hm Ht)
      as (content & _ & _ & _ & _ & ->). cbn [fst snd].
    split_and!; try done.
    + intros p Hp. cbn [files]. by rewrite lookup_insert_ne.
    + intros service account Ha. cbn [keyring]. by rewrite lookup_insert_ne.
  - destruct (store_non_ascii self w m username token Hm Ht)
      as (content & _ & _ & _ & ->). cbn [fst snd].
    split_and!; try done.
    intros p Hp. cbn [files]. by rewrite lookup_insert_ne.
Qed.

(** X8.  Users are independent: a [store] for one user, whatever it
    answers, leaves the answer of [retrieve_current_token] for every other
    user as it was. *)
Theorem store_keeps_other_users self w username other token :
  username ≠ other →
  (retrieve_current_token other (store username token (self, w)).2).1
    = (retrieve_current_token other (self, w)).1.
Proof.
  intros Hne.
  destruct (json_data self) as [| | | | |m] eqn:Hm;
    try (rewrite store_not_dict by (intros m; by rewrite Hm);
         by apply retrieve_result_ext).
  assert (Hget : ∀ v,
    getitem (JObj (dict_set m username v)) other = getitem (JObj m) other).
  { intros v. unfold getitem. by rewrite dict_get_set_ne. }
  destruct (ascii_encode token) as [data|] eqn:Ht.
  - destruct (store_dict self w m username token data Hm Ht)
      as (content & _ & _ & _ & _ & ->). cbn [fst snd].
    apply retrieve_result_ext.
    + cbn [keyring]. rewrite lookup_insert_ne; [done|]. by intros [=].
    + cbn [json_data set_json_data]. by rewrite Hm, Hget.
  - destruct (store_non_ascii self w m username token Hm Ht)
      as (content & _ & _ & _ & ->). cbn [fst snd].
    apply retrieve_result_ext; [done|].
    cbn [json_data set_json_data]. by rewrite Hm, Hget.
Qed.


(** X10.  The last write wins: after two successful calls of [store] for
    the same user, [retrieve_current_token] returns the second token. *)
Theorem store_twice_last_wins self w m username token1 token2 data1 data2 :
  json_data self = JObj m →
  ascii_encode token1 = Some data1 →
  ascii_encode token2 = Some data2 →
  ∃ st1 st2,
    store username token1 (self, w) = (Ok tt, st1) ∧
    store username token2 st1 = (Ok tt, st2) ∧
    retrieve_current_token username st2 = (Ok data2, st2).
Proof.
  intros Hm Ht1 Ht2.
  destruct (store_dict self w m username token1 data1 Hm Ht1)
    as (content1 & _ & _ & _ & _ & Hstore1).
  cbn zeta in Hstore1.
  match type of Hstore1 with
  | _ = (_, (set_json_data (JObj ?m1) ?s, ?w1)) =>
    destruct (store_dict (set_json_data (JObj m1) s) w1 m1 username token2
                data2 eq_refl Ht2)
      as (content2 & _ & Hvalid & Hascii & Hcascii & Hstore2)
  end.
  cbn zeta in Hstore2. eexists _, _. split; [exact Hstore1|].
  split; [exact Hstore2|].
  eapply retrieve_from_stored; [reflexivity| |exact Hvalid|exact Hascii|
                                exact Hcascii|by apply decrypt_encrypt].
  apply lookup_insert_eq.
Qed.

(** X12.  The key comes back from the registry as it was generated: after
    a successful [store], [_get_key] for the user returns the octets that
    [Fernet.generate_key] produced for that call, and the constructor
    accepts them. *)
Theorem get_key_after_store self w m username token data :
  json_data self = JObj m →
  ascii_encode token = Some data →
  ∃ st',
    store username token (self, w) = (Ok tt, st') ∧
    _get_key username st' = (Ok (generate_key (rng w)).1, st') ∧
    Fernet (generate_key (rng w)).1 = Ok (generate_key (rng w)).1.
Proof.
  intros Hm Ht.
  destruct (store_dict self w m username token data Hm Ht)
    as (content & _ & Hvalid & Hascii & _ & Hstore).
  cbn zeta in *. eexists. split; [exact Hstore|]. split.
  - unfold _get_key. run. rewrite dict_get_set_eq. simpl.
    by rewrite (ascii_encode_to_N _ Hascii).
  - unfold Fernet. by rewrite Hvalid.
Qed.

(** *** [retrieve_current_token] *)

(** X11.  What a returned token vouches for: when [retrieve_current_token]
    returns data, the keyring holds an ASCII text for the user, the registry
    is a dictionary whose entry for the user is an ASCII string that the
    Fernet constructor accepts as a key, and Fernet opened the text under
    that key to the data returned. *)
Theorem retrieve_success_inv self w username data :
  (retrieve_current_token username (self, w)).1 = Ok data →
  ∃ c cb m kt kb,
    keyring w !! (py "arcpy_auth_manager", username) = Some c ∧
    ascii_encode c = Some cb ∧
    json_data self = JObj m ∧
    dict_get m username = Some (JStr kt) ∧
    ascii_encode kt = Some kb ∧
    valid_key kb = true ∧
    decrypt kb cb = Some data.
Proof.
  rewrite retrieve_unfold.
  change (py _service_name) with (py "arcpy_auth_manager").
  destruct (keyring w !! _) as [c|]; [|done].
  destruct (ascii_encode c) as [cb|] eqn:Hc; [|done].
  unfold getitem. destruct (json_data self) as [| | | | |m]; try done.
  destruct (dict_get m username) as [[| | |kt| |]|] eqn:Hu; try done.
  unfold value_encode_ascii, str_encode_ascii.
  destruct (ascii_encode kt) as [kb|] eqn:Hkt; [|done].
  destruct (valid_key kb) eqn:Hv; [|done].
  unfold Fernet_decrypt. destruct (decrypt kb cb) as [d|] eqn:Hd; [|done].
  intros [= ->]. by exists c, cb, m, kt, kb.
Qed.

End Properties.

(** * The class at work on the reference instances *)

Module Run.
Import Reference ReferenceFacts ReferenceLaws.

#[local] Existing Instance cp1252.
#[local] Existing Instance tree_json.
#[local] Existing Instance toy_fernet.
#[local] Existing Instance cp1252_laws.
#[local] Existing Instance tree_json_laws.
#[local] Existing Instance toy_fernet_laws.

Example init_fresh : __init__ fresh_world = (Ok fresh_manager, st0.2).
Proof. vm_compute. reflexivity. Qed.

Example scenario_alice :
  (retrieve_current_token (py "alice") st1).1 = Ok (pyb "tok-123").
Proof. vm_compute. reflexivity. Qed.

Lemma store_then_retrieve_witness :
  json_data st0.1 = JObj [] ∧
  ascii_encode (py "tok-123") = Some (pyb "tok-123") ∧
  ∃ st',
    store (py "alice") (py "tok-123") st0 = (Ok tt, st') ∧
    retrieve_current_token (py "alice") st' = (Ok (pyb "tok-123"), st').
Proof.
  split; [reflexivity|]. split; [reflexivity|].
  apply (store_then_retrieve st0.1 st0.2 []); reflexivity.
Defined.

(** C1, as stated, fails: a token with a non-ASCII character ("é", U+00E9)
    is not returned by [retrieve_current_token] after [store].  [store]
    raises, and the retrieval that follows raises as well. *)
Lemma roundtrip_fails_on_non_ascii_token :
  let st' := (store (py "bob") [233] st0).2 in
  (store (py "bob") [233] st0).1 = Raise UnicodeEncodeError ∧
  (retrieve_current_token (py "bob") st').1
    = Raise (AttributeError NoneType (py "encode")) ∧
  ¬ ∃ data, (retrieve_current_token (py "bob") st').1 = Ok data.
Proof.
  cbn zeta. split_and!.
  - vm_compute. reflexivity.
  - vm_compute. reflexivity.
  - intros [data Hd]. vm_compute in Hd. discriminate.
Qed.



(** The registry entry of alice is gone while her token is still in the
    keyring: a manager with an empty registry on the world of [st1]. *)
Lemma retrieve_without_key_witness :
  keyring st1.2 !! (py _service_name, py "alice")
    = Some (py "aaahaihegpglcndbdcdd") ∧
  ascii_encode (py "aaahaihegpglcndbdcdd") = Some (pyb "aaahaihegpglcndbdcdd") ∧
  json_data fresh_manager = JObj [] ∧
  dict_get [] (py "alice") = None ∧
  ∃ e,
    retrieve_current_token (py "alice") (fresh_manager, st1.2)
      = (Raise e, (fresh_manager, st1.2)) ∧
    e = KeyError (py "alice") ∧
    error_kind e = UnknownIdentity ∧
    error_kind e ≠ CredentialNotFound.
Proof.
  split_and!; [vm_compute; reflexivity|reflexivity|reflexivity|reflexivity|].
  apply (retrieve_without_key fresh_manager st1.2 [] (py "alice")
           (py "aaahaihegpglcndbdcdd") (pyb "aaahaihegpglcndbdcdd"));
    [vm_compute; reflexivity|reflexivity|reflexivity|reflexivity].
Defined.



(** C6 at the failing input: the registry file is the single octet 0x81.
    Reading it raises [UnicodeDecodeError], which the handler for
    [JSONDecodeError] does not catch, so no manager is constructed. *)
Theorem undecodable_registry_stops_construction :
  files garbled_world !! registry_path garbled_world = Some [x81] ∧
  locale_decode [x81] = None ∧
  __init__ garbled_world
    = (Raise UnicodeDecodeError, after_makedirs garbled_world).
Proof. split_and!; vm_compute; reflexivity. Qed.



Lemma non_object_registry_witness :
  platform list_world = py "win32" ∧
  files list_world !! registry_path list_world = Some list_file ∧
  locale_decode list_file = Some (dumps (JList [])) ∧
  json_loads (dumps (JList [])) = Some (JList []) ∧
  (∀ m, JList [] ≠ JObj m) ∧
  ∃ self w',
    __init__ list_world = (Ok self, w') ∧
    json_data self = JList [] ∧
    ∀ username token, ∃ w'',
      store username token (self, w') = (Raise TypeError, (self, w'')) ∧
      files w'' = files w' ∧ keyring w'' = keyring w' ∧
      journal w'' = journal w'.
Proof.
  split_and!; [reflexivity|vm_compute; reflexivity|vm_compute; reflexivity|
               vm_compute; reflexivity|discriminate|].
  apply (non_object_registry list_world list_file (dumps (JList [])) (JList []));
    [reflexivity|vm_compute; reflexivity|vm_compute; reflexivity|
     vm_compute; reflexivity|discriminate].
Defined.

End Run.

(** * The further properties on the reference instances *)

Module RunMore.
Import Reference ReferenceFacts ReferenceLaws Run.

#[local] Existing Instance cp1252.
#[local] Existing Instance tree_json.
#[local] Existing Instance toy_fernet.
#[local] Existing Instance cp1252_laws.
#[local] Existing Instance tree_json_laws.
#[local] Existing Instance toy_fernet_laws.

Lemma init_effects_witness :
  __init__ fresh_world = (Ok fresh_manager, st0.2) ∧
  platform fresh_world = py "win32" ∧
  base_storage_folder fresh_manager
    = (home fresh_world / "AppData" / "Roaming" / "arcpy_auth_manager")%path ∧
  json_storage fresh_manager
    = (base_storage_folder fresh_manager / "auth_data.json")%path ∧
  base_storage_folder fresh_manager ∈ dirs st0.2 ∧
  dirs fresh_world ⊆ dirs st0.2 ∧
  files st0.2 = files fresh_world ∧
  keyring st0.2 = keyring fresh_world ∧
  journal st0.2
    = journal fresh_world ++ [EvMakedirs (base_storage_folder fresh_manager)].
Proof.
  split; [exact init_fresh|].
  exact (init_effects fresh_world fresh_manager st0.2 init_fresh).
Defined.

Lemma init_repeatable_witness :
  __init__ fresh_world = (Ok fresh_manager, st0.2) ∧
  ∃ w2,
    __init__ st0.2 = (Ok fresh_manager, w2) ∧
    dirs w2 = dirs st0.2 ∧ files w2 = files st0.2 ∧
    keyring w2 = keyring st0.2.
Proof.
  split; [exact init_fresh|].
  exact (init_repeatable fresh_world fresh_manager st0.2 init_fresh).
Defined.




Lemma store_touches_own_records_witness :
  let w' := (store (py "alice") (py "tok-123") st0).2.2 in
  platform w' = platform st0.2 ∧ home w' = home st0.2 ∧
  dirs w' = dirs st0.2 ∧
  (∀ p, p ≠ json_storage st0.1 → files w' !! p = files st0.2 !! p) ∧
  (∀ service account,
     (service, account) ≠ (py "arcpy_auth_manager", py "alice") →
     keyring w' !! (service, account) = keyring st0.2 !! (service, account)).
Proof.
  exact (store_touches_own_records st0.1 st0.2 (py "alice") (py "tok-123")).
Defined.

(** Alice's token is still read after bob has stored his. *)
Lemma store_keeps_other_users_witness :
  py "bob" ≠ py "alice" ∧
  (retrieve_current_token (py "alice")
     (store (py "bob") (py "tok-456") st1).2).1
    = (retrieve_current_token (py "alice") st1).1.
Proof.
  assert (Hne : py "bob" ≠ py "alice")
    by (intros Heq; vm_compute in Heq; discriminate).
  split; [exact Hne|].
  exact (store_keeps_other_users st1.1 st1.2 (py "bob") (py "alice")
           (py "tok-456") Hne).
Defined.


Lemma store_twice_last_wins_witness :
  json_data st0.1 = JObj [] ∧
  ascii_encode (py "tok-123") = Some (pyb "tok-123") ∧
  ascii_encode (py "tok-456") = Some (pyb "tok-456") ∧
  ∃ sta stb,
    store (py "alice") (py "tok-123") st0 = (Ok tt, sta) ∧
    store (py "alice") (py "tok-456") sta = (Ok tt, stb) ∧
    retrieve_current_token (py "alice") stb = (Ok (pyb "tok-456"), stb).
Proof.
  split_and!; [reflexivity..|].
  apply (store_twice_last_wins st0.1 st0.2 [] (py "alice") (py "tok-123")
           (py "tok-456") (pyb "tok-123")); reflexivity.
Defined.

Lemma get_key_after_store_witness :
  json_data st0.1 = JObj [] ∧
  ascii_encode (py "tok-123") = Some (pyb "tok-123") ∧
  ∃ st',
    store (py "alice") (py "tok-123") st0 = (Ok tt, st') ∧
    _get_key (py "alice") st' = (Ok (generate_key (rng st0.2)).1, st') ∧
    Fernet (generate_key (rng st0.2)).1 = Ok (generate_key (rng st0.2)).1.
Proof.
  split_and!; [reflexivity..|].
  apply (get_key_after_store st0.1 st0.2 [] (py "alice") (py "tok-123")
           (pyb "tok-123")); reflexivity.
Defined.

Lemma retrieve_success_inv_witness :
  (retrieve_current_token (py "alice") st1).1 = Ok (pyb "tok-123") ∧
  ∃ c cb m kt kb,
    keyring st1.2 !! (py "arcpy_auth_manager", py "alice") = Some c ∧
    ascii_encode c = Some cb ∧
    json_data st1.1 = JObj m ∧
    dict_get m (py "alice") = Some (JStr kt) ∧
    ascii_encode kt = Some kb ∧
    valid_key kb = true ∧
    decrypt kb cb = Some (pyb "tok-123").
Proof.
  split; [exact scenario_alice|].
  exact (retrieve_success_inv st1.1 st1.2 (py "alice") (pyb "tok-123")
           scenario_alice).
Defined.

End RunMore.
